(** * hpilo: a Salt execution module for HP iLO

    A shallow embedding of [hpilo.py] and the properties of its
    credential resolver and operation dispatchers.

    Python values are a small inductive type, dictionaries are [gmap]s
    keyed by strings, and the effects of the module (constructing a
    client, calling the device, writing to the log, raising) live in a
    monad that threads the history of events of the process and collects
    the events of the current call. *)

From stdpp Require Import gmap strings list fin_maps.
From Stdlib Require Import ZArith.

Set Warnings "-register-all".

Open Scope string_scope.
Open Scope list_scope.

(** ** Python values *)

Inductive pyval : Type :=
| PNone
| PBool (b : bool)
| PInt (n : Z)
| PStr (s : string)
| PList (l : list pyval)
| PDict (d : gmap string pyval).

(** Truth value of an object, as tested by [if x:]. *)
Definition truthy (v : pyval) : bool :=
  match v with
  | PNone => false
  | PBool b => b
  | PInt n => negb (Z.eqb n 0)
  | PStr s => negb (String.eqb s "")
  | PList l => match l with [] => false | _ => true end
  | PDict d => negb (bool_decide (d = ∅))
  end.

(** [v == 'lit'] for a string literal: only a string equals a string. *)
Definition py_eq_str (v : pyval) (lit : string) : bool :=
  match v with
  | PStr s => String.eqb s lit
  | _ => false
  end.

(** [v == False] and [v == True]: booleans are integers in Python, so
    [0 == False] and [1 == True] hold; [None] equals neither. *)
Definition py_eq_bool (v : pyval) (lit : bool) : bool :=
  match v with
  | PBool b => Bool.eqb b lit
  | PInt n => Z.eqb n (if lit then 1 else 0)
  | _ => false
  end.

(** [d.get(k)] on a dictionary: the value, or [None]. *)
Definition dict_get (d : gmap string pyval) (k : string) : pyval :=
  default PNone (d !! k).

(** [{**d, **new}]: the later mapping wins on a shared key. *)
Definition dict_update (d new : gmap string pyval) : gmap string pyval :=
  new ∪ d.

(** ** Exceptions and results *)

Inductive exn : Type :=
| NameError (name : string)
| KeyError (key : string)
| TypeError
| AttributeError
| IloError (msg : string).

Inductive result (A : Type) : Type :=
| Ok (a : A)
| Raise (e : exn).
Arguments Ok {A} a.
Arguments Raise {A} e.

(** [v[key]] with a string key. *)
Definition py_getitem (v : pyval) (key : string) : result pyval :=
  match v with
  | PDict d => match d !! key with
               | Some x => Ok x
               | None => Raise (KeyError key)
               end
  | _ => Raise TypeError
  end.

(** [**v] inside a dictionary display: [v] has to be a mapping. *)
Definition py_mapping (v : pyval) : result (gmap string pyval) :=
  match v with
  | PDict d => Ok d
  | _ => Raise TypeError
  end.

(** [v.get(key)]: a method of dictionaries. *)
Definition py_get (v : pyval) (key : string) : result pyval :=
  match v with
  | PDict d => Ok (dict_get d key)
  | _ => Raise AttributeError
  end.

(** ** The remote client and the world around the module *)

(** The methods of [hpilo.Ilo] the module calls. *)
Inductive method : Type :=
| get_host_power_status
| set_host_power (on : bool)
| hold_pwr_btn
| press_pwr_btn
| get_all_user_info
| get_all_users
| get_product_name
| get_fw_version
| get_asset_tag
| get_network_settings
| get_persistent_boot.

(** What a remote call does: it returns a value or raises
    [hpilo.IloError] with a message. *)
Inductive response : Type :=
| Returns (v : pyval)
| RaisesIloError (msg : string).

(** An [hpilo.Ilo] object.  [ilo_id] is the identity of the object. *)
Record Ilo : Type := mkIlo {
  ilo_id : nat;
  hostname : pyval;
  login : pyval;
  password : pyval;
  delayed : pyval;
}.

Inductive event : Type :=
| EConstruct (ilo : Ilo)
| ECall (ilo : Ilo) (m : method) (r : response)
| ELogError (msg : string).

(** Everything the module takes from outside:
    - [config_option] is [__salt__['config.option']];
    - [global_config] is the binding of the module-level name [config],
      which the module itself never binds ([None]: the name is unbound);
    - [remote] answers a method call on a client, given the history of
      the process so far;
    - [py_repr] formats a value that is not a string. *)
Record World : Type := mkWorld {
  config_option : pyval -> pyval;
  global_config : option pyval;
  remote : list event -> Ilo -> method -> response;
  py_repr : pyval -> string;
}.

(** A replacement field [{v}] of an f-string. *)
Definition format_value (w : World) (v : pyval) : string :=
  match v with
  | PStr s => s
  | _ => py_repr w v
  end.

(** ** The monad of effects

    A computation reads the history of events so far and yields a result
    together with the events it added. *)

Definition M (A : Type) : Type := list event -> result A * list event.

Definition ret {A} (a : A) : M A := fun _ => (Ok a, []).

Definition raise {A} (e : exn) : M A := fun _ => (Raise e, []).

Definition lift {A} (r : result A) : M A := fun _ => (r, []).

Definition bind {A B} (m : M A) (k : A -> M B) : M B := fun h =>
  match m h with
  | (Ok a, evs) => let '(r, evs') := k a (h ++ evs) in (r, evs ++ evs')
  | (Raise e, evs) => (Raise e, evs)
  end.

Notation "'let*' x ':=' m 'in' k" := (bind m (fun x => k))
  (at level 10, x name, m at level 100, k at level 200).

Definition emit (e : event) : M unit := fun _ => (Ok tt, [e]).

Definition outcome {A} (m : M A) (h : list event) : result A := fst (m h).
Definition events {A} (m : M A) (h : list event) : list event := snd (m h).

(** An exception class as an [except] clause uses it: does the exception
    match, and what is [str(e)]. *)
Definition exn_class : Type := exn -> option string.

(** The attribute [hpilo.IloError]. *)
Definition hpilo_IloError : result exn_class :=
  Ok (fun e => match e with IloError msg => Some msg | _ => None end).

(** The bare name [IloError]: the module imports [hpilo] only, so the
    name is bound neither in the module nor in the builtins. *)
Definition bare_IloError : result exn_class := Raise (NameError "IloError").

(** [try: body  except cls as e: handler], followed by [k].  The class
    expression is evaluated only when the body raises; the handler returns
    from the function, and [k], the code after the statement, is not
    protected. *)
Definition try_except {A B} (body : M A) (cls : result exn_class)
    (handler : string -> M B) (k : A -> M B) : M B := fun h =>
  match body h with
  | (Ok a, evs) => let '(r, evs') := k a (h ++ evs) in (r, evs ++ evs')
  | (Raise e, evs) =>
      match cls with
      | Raise e' => (Raise e', evs)
      | Ok c =>
          match c e with
          | Some msg =>
              let '(r, evs') := handler msg (h ++ evs) in (r, evs ++ evs')
          | None => (Raise e, evs)
          end
      end
  end.

(** [hpilo.Ilo(hostname=..., login=..., password=..., delayed=...)]: a new
    object, which stores its arguments. *)
Definition hpilo_Ilo (hn lg pw dl : pyval) : M Ilo := fun h =>
  let ilo := mkIlo (length h) hn lg pw dl in (Ok ilo, [EConstruct ilo]).

(** [ilo.m()]. *)
Definition call (w : World) (ilo : Ilo) (m : method) : M pyval := fun h =>
  let r := remote w h ilo m in
  (match r with
   | Returns v => Ok v
   | RaisesIloError msg => Raise (IloError msg)
   end, [ECall ilo m r]).

Definition log_error (msg : string) : M unit := emit (ELogError msg).

(** ** The module *)

Record Creds : Type := mkCreds {
  c_login : pyval;
  c_password : pyval;
  c_hostname : pyval;
}.

(** The name [config] in [_login]. *)
Definition lookup_config (w : World) : result pyval :=
  match global_config w with
  | Some c => Ok c
  | None => Raise (NameError "config")
  end.

Definition rbind {A B} (r : result A) (k : A -> result B) : result B :=
  match r with
  | Ok a => k a
  | Raise e => Raise e
  end.

(** The three fields of a dictionary display, read left to right. *)
Definition read_creds (src : pyval) : result Creds :=
  rbind (py_getitem src "login") (fun lg =>
  rbind (py_getitem src "password") (fun pw =>
  rbind (py_getitem src "hostname") (fun hn =>
  Ok (mkCreds lg pw hn)))).

(** The [if]/[elif]/[else] of [_login], which builds [creds]. *)
Definition _login_creds (w : World) (kwargs : gmap string pyval) : result Creds :=
  if forallb (fun k => bool_decide (is_Some (kwargs !! k)))
       ["login"; "password"; "hostname"]
  then
    rbind (lookup_config w) (fun config =>
    rbind (py_getitem config "login") (fun lg =>
    rbind (lookup_config w) (fun config =>
    rbind (py_getitem config "password") (fun pw =>
    rbind (lookup_config w) (fun config =>
    rbind (py_getitem config "hostname") (fun hn =>
    Ok (mkCreds lg pw hn)))))))
  else
    match kwargs !! "profile" with
    | Some name => read_creds (config_option w name)
    | None =>
        Ok (mkCreds (config_option w (PStr "hpilo.login"))
                    (config_option w (PStr "hpilo.password"))
                    (config_option w (PStr "hpilo.hostname")))
    end.

(** [_login], called with the keywords [kw]: the key [delay] of [kw], when
    there is one, binds the parameter [delay]; the other keys make up
    [kwargs]. *)
Definition _login (w : World) (kw : gmap string pyval) : M Ilo :=
  let delay := default (PBool false) (kw !! "delay") in
  let kwargs := delete "delay" kw in
  let* creds := lift (_login_creds w kwargs) in
  hpilo_Ilo (c_hostname creds) (c_login creds) (c_password creds) delay.

Definition get_power_status (w : World) (kwargs : gmap string pyval) : M pyval :=
  let* ilo := _login w kwargs in
  try_except
    (call w ilo get_host_power_status)
    hpilo_IloError
    (fun e =>
       let* _ := log_error ("Failed to get power state of "
                            +:+ format_value w (hostname ilo) +:+ ": " +:+ e) in
       ret (PDict ∅))
    (fun pwr =>
       ret (PDict {[ "power" := PBool (if py_eq_str pwr "ON" then true else false) ]})).

Definition power_on (w : World) (kwargs : gmap string pyval) : M pyval :=
  let ret_ := PDict {[ "power_state" := PBool true ]} in
  let* ilo := _login w kwargs in
  try_except
    (call w ilo (set_host_power true))
    bare_IloError
    (fun e =>
       let* _ := log_error ("Failed to power on "
                            +:+ format_value w (hostname ilo) +:+ ": " +:+ e) in
       ret (PDict ∅))
    (fun pwr => ret PNone).

Definition power_off (w : World) (hold : pyval) (kwargs : gmap string pyval)
    : M pyval :=
  let ret_ := PDict {[ "power_state" := PBool false ]} in
  let* ilo := _login w kwargs in
  let* status := get_power_status w kwargs in
  let* power := lift (py_get status "power") in
  if py_eq_bool power false then ret ret_
  else
    try_except
      (if truthy hold then call w ilo hold_pwr_btn
       else call w ilo press_pwr_btn)
      hpilo_IloError
      (fun e =>
         let* _ := log_error ("Failed to power off "
                              +:+ format_value w (hostname ilo) +:+ ": " +:+ e) in
         ret (PDict {[ "power_state" := PNone ]}))
      (fun _ => ret ret_).

Definition list_users (w : World) (kwargs : gmap string pyval) : M pyval :=
  let* ilo := _login w kwargs in
  try_except
    (if truthy (dict_get kwargs "detailed") then call w ilo get_all_user_info
     else call w ilo get_all_users)
    hpilo_IloError
    (fun e =>
       let* _ := log_error ("Failed to get all users from "
                            +:+ format_value w (hostname ilo) +:+ ": " +:+ e) in
       ret (PDict ∅))
    (fun users => ret users).

Definition product_info (w : World) (kwargs : gmap string pyval) : M pyval :=
  let* ilo := _login w kwargs in
  try_except
    (let* product_name := call w ilo get_product_name in
     let* fw_version := call w ilo get_fw_version in
     let* asset_tag := call w ilo get_asset_tag in
     ret (product_name, fw_version, asset_tag))
    hpilo_IloError
    (fun e =>
       let* _ := log_error ("Failed to get product name and version version from "
                            +:+ format_value w (hostname ilo) +:+ ": " +:+ e) in
       ret (PDict ∅))
    (fun '(product_name, fw_version, asset_tag) =>
       let d := {[ "product_name" := product_name ]} in
       let* at_ := lift (py_mapping asset_tag) in
       let d := dict_update d at_ in
       let* fw := lift (py_mapping fw_version) in
       let d := dict_update d fw in
       ret (PDict d)).

Definition network_settings (w : World) (kwargs : gmap string pyval) : M pyval :=
  let* ilo := _login w kwargs in
  try_except
    (call w ilo get_network_settings)
    hpilo_IloError
    (fun e =>
       let* _ := log_error ("Failed to get network settings from "
                            +:+ format_value w (hostname ilo) +:+ ": " +:+ e) in
       ret (PDict ∅))
    (fun settings => ret settings).

Definition get_boot_order (w : World) (kwargs : gmap string pyval) : M pyval :=
  let* ilo := _login w kwargs in
  try_except
    (call w ilo get_persistent_boot)
    hpilo_IloError
    (fun e =>
       let* _ := log_error ("Failed to get boot order from "
                            +:+ format_value w (hostname ilo) +:+ ": " +:+ e) in
       ret (PDict ∅))
    (fun order => ret order).

(** The functions the module offers to the framework, which calls them
    by name. *)
Inductive operation : Type :=
| Op_get_power_status
| Op_power_on
| Op_power_off (hold : pyval)
| Op_list_users
| Op_product_info
| Op_network_settings
| Op_get_boot_order.

Definition dispatch (w : World) (op : operation) (kwargs : gmap string pyval)
    : M pyval :=
  match op with
  | Op_get_power_status => get_power_status w kwargs
  | Op_power_on => power_on w kwargs
  | Op_power_off hold => power_off w hold kwargs
  | Op_list_users => list_users w kwargs
  | Op_product_info => product_info w kwargs
  | Op_network_settings => network_settings w kwargs
  | Op_get_boot_order => get_boot_order w kwargs
  end.

(** ** Test worlds *)

Module Mock.

(** A minion configuration with defaults and one host profile. *)
Definition minion_config (name : pyval) : pyval :=
  if py_eq_str name "hpilo.login" then PStr "Administrator"
  else if py_eq_str name "hpilo.password" then PStr "password"
  else if py_eq_str name "hpilo.hostname" then PStr "server1-ilo.oob.local"
  else if py_eq_str name "server2-ilo" then
    PDict {[ "login" := PStr "Administrator";
             "password" := PStr "password_2";
             "hostname" := PStr "server2-ilo.oob.local" ]}
  else PStr "".

Definition repr (v : pyval) : string :=
  match v with
  | PNone => "None"
  | PBool true => "True"
  | PBool false => "False"
  | _ => "<object>"
  end.

Definition users : pyval := PList [PStr "Administrator"; PStr "operator"].

Definition user_info : pyval :=
  PDict {[ "Administrator" := PDict {[ "user_login" := PStr "Administrator";
                                       "admin_priv" := PBool true ]};
           "operator" := PDict {[ "user_login" := PStr "operator";
                                  "admin_priv" := PBool false ]} ]}.

Definition firmware : gmap string pyval :=
  {[ "firmware_version" := PStr "2.70";
     "management_processor" := PStr "iLO4" ]}.

Definition tag : gmap string pyval := {[ "asset_tag" := PStr "A-1017" ]}.

(** A device that answers every call; [power] is its power state. *)
Definition device (power : string) (h : list event) (ilo : Ilo) (m : method)
    : response :=
  match m with
  | get_host_power_status => Returns (PStr power)
  | set_host_power _ => Returns PNone
  | hold_pwr_btn => Returns PNone
  | press_pwr_btn => Returns PNone
  | get_all_user_info => Returns user_info
  | get_all_users => Returns users
  | get_product_name => Returns (PStr "ProLiant DL380 Gen9")
  | get_fw_version => Returns (PDict firmware)
  | get_asset_tag => Returns (PDict tag)
  | get_network_settings =>
      Returns (PDict {[ "dns_name" := PStr "server1-ilo";
                        "dhcp_enable" := PBool false ]})
  | get_persistent_boot => Returns (PList [PStr "cdrom"; PStr "hdd"])
  end.

(** A device that cannot be reached. *)
Definition unreachable (h : list event) (ilo : Ilo) (m : method) : response :=
  RaisesIloError "timed out".

(** A device that is on and whose power button cannot be operated. *)
Definition stuck_button (h : list event) (ilo : Ilo) (m : method) : response :=
  match m with
  | hold_pwr_btn | press_pwr_btn => RaisesIloError "button unavailable"
  | _ => device "ON" h ilo m
  end.

(** A device whose power state cannot be read. *)
Definition blind (h : list event) (ilo : Ilo) (m : method) : response :=
  match m with
  | get_host_power_status => RaisesIloError "syntax error"
  | _ => device "OFF" h ilo m
  end.

Definition world (dev : list event -> Ilo -> method -> response) : World :=
  mkWorld minion_config None dev repr.

(** The same, with the name [config] bound to a dictionary. *)
Definition world_with_config (dev : list event -> Ilo -> method -> response)
    : World :=
  mkWorld minion_config
    (Some (PDict {[ "login" := PStr "root";
                    "password" := PStr "hunter2";
                    "hostname" := PStr "other-ilo.oob.local" ]}))
    dev repr.

Definition explicit_kwargs : gmap string pyval :=
  {[ "login" := PStr "Administrator";
     "password" := PStr "password";
     "hostname" := PStr "server1-ilo" ]}.

Definition profile_kwargs : gmap string pyval :=
  {[ "profile" := PStr "server2-ilo" ]}.

End Mock.

(** ** How the functions run *)

(** The client [_login] builds on history [h] from credentials [c]. *)
Definition new_ilo (h : list event) (c : Creds) (kw : gmap string pyval) : Ilo :=
  mkIlo (length h) (c_hostname c) (c_login c) (c_password c)
        (default (PBool false) (kw !! "delay")).

(** A dispatcher that makes one remote call [m] under [hpilo.IloError]
    and passes the value it gets through [shape]. *)
Definition one_call_run (w : World) (kw : gmap string pyval) (h : list event)
    (m : method) (what : string) (shape : pyval -> pyval)
    : result pyval * list event :=
  match _login_creds w (delete "delay" kw) with
  | Raise e => (Raise e, [])
  | Ok c =>
      let ilo := new_ilo h c kw in
      let r := remote w (h ++ [EConstruct ilo]) ilo m in
      match r with
      | Returns v => (Ok (shape v), [EConstruct ilo; ECall ilo m r])
      | RaisesIloError msg =>
          (Ok (PDict ∅),
           [EConstruct ilo; ECall ilo m r;
            ELogError (what +:+ format_value w (c_hostname c) +:+ ": " +:+ msg)])
      end
  end.

(** The button [power_off] operates. *)
Definition button (hold : pyval) : method :=
  if truthy hold then hold_pwr_btn else press_pwr_btn.

(** The [try] statement of [power_off], run on history [h]. *)
Definition button_run (w : World) (hold : pyval) (h : list event) (ilo : Ilo)
    : result pyval * list event :=
  let r := remote w h ilo (button hold) in
  match r with
  | Returns _ =>
      (Ok (PDict {[ "power_state" := PBool false ]}), [ECall ilo (button hold) r])
  | RaisesIloError msg =>
      (Ok (PDict {[ "power_state" := PNone ]}),
       [ECall ilo (button hold) r;
        ELogError ("Failed to power off "
                   +:+ format_value w (hostname ilo) +:+ ": " +:+ msg)])
  end.

(** The events of [power_off] up to its test of the power state: its own
    client, then the client and the query of [get_power_status]. *)
Definition precheck_events (w : World) (kw : gmap string pyval)
    (h : list event) (c : Creds) : list event :=
  let ilo := new_ilo h c kw in
  let ilo' := new_ilo (h ++ [EConstruct ilo]) c kw in
  let r := remote w (h ++ [EConstruct ilo; EConstruct ilo']) ilo'
             get_host_power_status in
  EConstruct ilo :: EConstruct ilo' :: ECall ilo' get_host_power_status r ::
  match r with
  | Returns _ => []
  | RaisesIloError msg =>
      [ELogError ("Failed to get power state of "
                  +:+ format_value w (c_hostname c) +:+ ": " +:+ msg)]
  end.

(** Whether the pre-check of [power_off] finds the host off. *)
Definition precheck_off (w : World) (kw : gmap string pyval)
    (h : list event) (c : Creds) : bool :=
  let ilo := new_ilo h c kw in
  let ilo' := new_ilo (h ++ [EConstruct ilo]) c kw in
  match remote w (h ++ [EConstruct ilo; EConstruct ilo']) ilo'
          get_host_power_status with
  | Returns v => negb (py_eq_str v "ON")
  | RaisesIloError _ => false
  end.

(** The dictionary display at the end of [product_info]. *)
Definition product_dict (product_name fw_version asset_tag : pyval)
    : result pyval :=
  rbind (py_mapping asset_tag) (fun at_ =>
  rbind (py_mapping fw_version) (fun fw =>
  Ok (PDict (dict_update (dict_update {[ "product_name" := product_name ]} at_) fw)))).

Definition product_log (w : World) (c : Creds) (msg : string) : event :=
  ELogError ("Failed to get product name and version version from "
             +:+ format_value w (c_hostname c) +:+ ": " +:+ msg).

(** ** Observations on a run *)

(** The clients constructed during a run. *)
Definition constructed (evs : list event) : list Ilo :=
  omap (fun e => match e with EConstruct ilo => Some ilo | _ => None end) evs.

(** A remote call that changes the power state. *)
Definition is_power_change (e : event) : bool :=
  match e with
  | ECall _ (hold_pwr_btn | press_pwr_btn | set_host_power _) _ => true
  | _ => false
  end.

Definition is_button (m : method) : bool :=
  match m with
  | hold_pwr_btn | press_pwr_btn => true
  | _ => false
  end.

(** [sub] occurs in [s]. *)
Definition contains (sub s : string) : Prop :=
  exists pre post, s = pre +:+ sub +:+ post.

Definition is_list (v : pyval) : bool :=
  match v with PList _ => true | _ => false end.

Definition is_dict (v : pyval) : bool :=
  match v with PDict _ => true | _ => false end.

(** What the client library promises about its two user queries: the
    summary is a list, the detailed answer a mapping. *)
Definition users_contract (w : World) : Prop :=
  forall h ilo v,
    (remote w h ilo get_all_users = Returns v -> is_list v = true)
    /\ (remote w h ilo get_all_user_info = Returns v -> is_dict v = true).

(** The credentials a client was built from. *)
Definition creds_of (ilo : Ilo) : Creds :=
  mkCreds (login ilo) (password ilo) (hostname ilo).

(** The number of clients a call of an operation constructs. *)
Definition clients_per_call (op : operation) : nat :=
  match op with
  | Op_power_off _ => 2
  | _ => 1
  end.

(** Whether the three explicit credentials are among the keywords. *)
Definition explicit (kwargs : gmap string pyval) : bool :=
  forallb (fun k => bool_decide (is_Some (kwargs !! k)))
    ["login"; "password"; "hostname"].

(** A run that caught a protocol error: it returned a value and logged a
    message with the host name of the client and the text of the error. *)
Definition caught (w : World) (run : result pyval * list event)
    (ilo : Ilo) (msg : string) : Prop :=
  (exists v, fst run = Ok v)
  /\ exists text, In (ELogError text) (snd run)
       /\ contains (format_value w (hostname ilo)) text
       /\ contains msg text.

(** ** Further observations *)

(** The methods of the remote calls of a run, in order. *)
Definition calls (evs : list event) : list method :=
  omap (fun e => match e with ECall _ m _ => Some m | _ => None end) evs.

(** The most remote calls one call of an operation makes. *)
Definition max_calls (op : operation) : nat :=
  match op with
  | Op_power_off _ => 2
  | Op_product_info => 3
  | _ => 1
  end.

(** The operations that only read from the device. *)
Definition is_query (op : operation) : bool :=
  match op with
  | Op_power_on | Op_power_off _ => false
  | _ => true
  end.

(** The keywords of a call that names a profile nobody configured. *)
Definition unknown_profile_kwargs : gmap string pyval :=
  {[ "profile" := PStr "server9-ilo" ]}.

(** The client number [n] of a process that uses the default options of
    [Mock.minion_config]. *)
Definition default_client (n : nat) : Ilo :=
  mkIlo n (PStr "server1-ilo.oob.local") (PStr "Administrator")
    (PStr "password") (PBool false).

(** The profile [server2-ilo] of [Mock.minion_config]. *)
Definition server2_profile : gmap string pyval :=
  {[ "login" := PStr "Administrator";
     "password" := PStr "password_2";
     "hostname" := PStr "server2-ilo.oob.local" ]}.

(** A device whose asset tag comes back as a string. *)
Definition odd_tag_device (h : list event) (ilo : Ilo) (m : method) : response :=
  match m with
  | get_asset_tag => Returns (PStr "A-1017")
  | _ => Mock.device "ON" h ilo m
  end.

(** * Proofs *)

(** ** Runs on the test worlds *)

Example ex_status_on :
  get_power_status (Mock.world (Mock.device "ON")) ∅ [] =
  (Ok (PDict {[ "power" := PBool true ]}),
   let ilo := mkIlo 0 (PStr "server1-ilo.oob.local") (PStr "Administrator")
                (PStr "password") (PBool false) in
   [EConstruct ilo; ECall ilo get_host_power_status (Returns (PStr "ON"))]).
Proof. vm_compute. reflexivity. Qed.

Example ex_status_profile :
  outcome (get_power_status (Mock.world (Mock.device "OFF")) Mock.profile_kwargs) []
  = Ok (PDict {[ "power" := PBool false ]}).
Proof. vm_compute. reflexivity. Qed.

Example ex_explicit :
  outcome (get_power_status (Mock.world (Mock.device "OFF")) Mock.explicit_kwargs) []
  = Raise (NameError "config").
Proof. vm_compute. reflexivity. Qed.

(** ** How the functions run: the equations *)

Lemma singleton_bool_inj (k : string) (a b : bool) :
  PDict {[ k := PBool a ]} = PDict {[ k := PBool b ]} -> a = b.
Proof.
  intros H.
  apply (f_equal (fun v => match v with PDict d => d !! k | _ => None end)) in H.
  rewrite !lookup_singleton_eq in H. congruence.
Qed.

Lemma py_eq_str_true v s : py_eq_str v s = true <-> v = PStr s.
Proof.
  destruct v; simpl; try (split; [discriminate | discriminate]).
  rewrite String.eqb_eq. split; congruence.
Qed.

Lemma login_run w kw h :
  _login w kw h =
  match _login_creds w (delete "delay" kw) with
  | Ok c => (Ok (new_ilo h c kw), [EConstruct (new_ilo h c kw)])
  | Raise e => (Raise e, [])
  end.
Proof.
  unfold _login, bind, lift, hpilo_Ilo, new_ilo.
  destruct (_login_creds w (delete "delay" kw)); simpl; [|reflexivity].
  rewrite app_nil_r. reflexivity.
Qed.

Ltac run_one_call :=
  unfold one_call_run, bind, try_except, call, hpilo_IloError, log_error,
    emit, ret;
  rewrite login_run;
  destruct (_login_creds _ _) as [c|e]; [|reflexivity];
  cbn [app]; destruct (remote _ _ _ _); reflexivity.

Lemma get_power_status_run w kw h :
  get_power_status w kw h =
  one_call_run w kw h get_host_power_status "Failed to get power state of "
    (fun pwr => PDict {[ "power" := PBool (if py_eq_str pwr "ON" then true else false) ]}).
Proof. unfold get_power_status. run_one_call. Qed.

Lemma list_users_run w kw h :
  list_users w kw h =
  if truthy (dict_get kw "detailed")
  then one_call_run w kw h get_all_user_info "Failed to get all users from " id
  else one_call_run w kw h get_all_users "Failed to get all users from " id.
Proof. unfold list_users. destruct (truthy _); run_one_call. Qed.

Lemma network_settings_run w kw h :
  network_settings w kw h =
  one_call_run w kw h get_network_settings "Failed to get network settings from " id.
Proof. unfold network_settings. run_one_call. Qed.

Lemma get_boot_order_run w kw h :
  get_boot_order w kw h =
  one_call_run w kw h get_persistent_boot "Failed to get boot order from " id.
Proof. unfold get_boot_order. run_one_call. Qed.

Lemma power_on_run w kw h :
  power_on w kw h =
  match _login_creds w (delete "delay" kw) with
  | Raise e => (Raise e, [])
  | Ok c =>
      let ilo := new_ilo h c kw in
      let r := remote w (h ++ [EConstruct ilo]) ilo (set_host_power true) in
      (match r with
       | Returns _ => Ok PNone
       | RaisesIloError _ => Raise (NameError "IloError")
       end, [EConstruct ilo; ECall ilo (set_host_power true) r])
  end.
Proof.
  unfold power_on, bind, try_except, call, bare_IloError, ret.
  rewrite login_run.
  destruct (_login_creds _ _) as [c|e]; [|reflexivity].
  cbn [app]. destruct (remote _ _ _ _); reflexivity.
Qed.

Lemma power_off_run w hold kw h :
  power_off w hold kw h =
  match _login_creds w (delete "delay" kw) with
  | Raise e => (Raise e, [])
  | Ok c =>
      let pre := precheck_events w kw h c in
      if precheck_off w kw h c
      then (Ok (PDict {[ "power_state" := PBool false ]}), pre)
      else let '(r, evs) := button_run w hold (h ++ pre) (new_ilo h c kw) in
           (r, pre ++ evs)
  end.
Proof.
  unfold power_off, bind at 1. rewrite login_run.
  destruct (_login_creds w (delete "delay" kw)) as [c|e] eqn:Ec; [|reflexivity].
  unfold bind at 1. rewrite get_power_status_run. unfold one_call_run.
  rewrite Ec. unfold precheck_off, precheck_events. cbn zeta.
  rewrite <- !app_assoc. cbn [app].
  destruct (remote w _ _ get_host_power_status) as [v|msg]; cbn [app].
  - unfold bind, lift, py_get, dict_get. rewrite lookup_singleton_eq. cbn.
    destruct (py_eq_str v "ON"); cbn.
    + unfold try_except, button_run, button, hpilo_IloError, log_error, emit, bind, ret, call.
      rewrite <- !app_assoc. cbn [app].
      destruct (truthy hold); destruct (remote w _ _ _); reflexivity.
    + reflexivity.
  - unfold bind, lift, py_get, dict_get. rewrite lookup_empty. cbn.
    unfold try_except, button_run, button, hpilo_IloError, log_error, emit, bind, ret, call.
    rewrite <- !app_assoc. cbn [app].
    destruct (truthy hold); destruct (remote w _ _ _); reflexivity.
Qed.

Lemma product_info_run w kw h :
  product_info w kw h =
  match _login_creds w (delete "delay" kw) with
  | Raise e => (Raise e, [])
  | Ok c =>
      let ilo := new_ilo h c kw in
      let e0 := EConstruct ilo in
      let r1 := remote w (h ++ [e0]) ilo get_product_name in
      let e1 := ECall ilo get_product_name r1 in
      match r1 with
      | RaisesIloError msg => (Ok (PDict ∅), [e0; e1; product_log w c msg])
      | Returns product_name =>
          let r2 := remote w (h ++ [e0; e1]) ilo get_fw_version in
          let e2 := ECall ilo get_fw_version r2 in
          match r2 with
          | RaisesIloError msg => (Ok (PDict ∅), [e0; e1; e2; product_log w c msg])
          | Returns fw_version =>
              let r3 := remote w (h ++ [e0; e1; e2]) ilo get_asset_tag in
              let e3 := ECall ilo get_asset_tag r3 in
              match r3 with
              | RaisesIloError msg =>
                  (Ok (PDict ∅), [e0; e1; e2; e3; product_log w c msg])
              | Returns asset_tag =>
                  (product_dict product_name fw_version asset_tag,
                   [e0; e1; e2; e3])
              end
          end
      end
  end.
Proof.
  unfold product_info, bind at 1. rewrite login_run.
  destruct (_login_creds w (delete "delay" kw)) as [c|e]; [|reflexivity].
  unfold try_except, bind, call, hpilo_IloError, log_error, emit, ret, lift,
    product_log, product_dict.
  cbn zeta. cbn [app].
  destruct (remote w _ _ get_product_name) as [pn|msg]; [|reflexivity].
  cbn [app]. rewrite <- ?app_assoc. cbn [app].
  destruct (remote w _ _ get_fw_version) as [fw|msg]; [|reflexivity].
  cbn [app]. rewrite <- ?app_assoc. cbn [app].
  destruct (remote w _ _ get_asset_tag) as [tag|msg]; [|reflexivity].
  cbn [app]. rewrite <- ?app_assoc. cbn [app].
  destruct (py_mapping tag); cbn; [|reflexivity].
  destruct (py_mapping fw); reflexivity.
Qed.

(** ** The power and query dispatchers *)

Lemma Ok_inj {A} (a b : A) : Ok a = Ok b -> a = b.
Proof. congruence. Qed.

Lemma if_bool_id (b : bool) : (if b then true else false) = b.
Proof. destruct b; reflexivity. Qed.

Ltac event_cases :=
  repeat match goal with
  | H : In _ (_ :: _) |- _ => destruct H as [H|H]
  | H : In _ [] |- _ => destruct H
  | H : In _ (_ ++ _) |- _ => apply in_app_or in H; destruct H as [H|H]
  | H : ECall _ _ _ = ECall _ _ _ |- _ =>
      first [ discriminate H | injection H; clear H; intros; subst ]
  | H : EConstruct _ = ECall _ _ _ |- _ => discriminate H
  | H : ELogError _ = ECall _ _ _ |- _ => discriminate H
  | H : ECall _ _ _ = EConstruct _ |- _ => discriminate H
  | H : ELogError _ = EConstruct _ |- _ => discriminate H
  end.

(** C6: when the remote query of [get_power_status] returns a value, the
    result is [{power: True}] exactly when that value is the string "ON",
    and [{power: False}] for every other value. *)
Theorem get_power_status_ON_iff w kwargs h ilo v :
  In (ECall ilo get_host_power_status (Returns v))
     (events (get_power_status w kwargs) h) ->
  outcome (get_power_status w kwargs) h
    = Ok (PDict {[ "power" := PBool (py_eq_str v "ON") ]})
  /\ (outcome (get_power_status w kwargs) h
        = Ok (PDict {[ "power" := PBool true ]}) <-> v = PStr "ON")
  /\ (v <> PStr "ON" ->
      outcome (get_power_status w kwargs) h
        = Ok (PDict {[ "power" := PBool false ]})).
Proof.
  unfold outcome, events. rewrite get_power_status_run. unfold one_call_run.
  destruct (_login_creds _ _) as [c|e]; [|intros []].
  cbn zeta. destruct (remote _ _ _ _) as [v'|msg] eqn:Er; cbn [fst snd];
    intros H; event_cases; try discriminate.
  rewrite if_bool_id.
  split; [reflexivity|]. split.
  - split.
    + intros H. apply Ok_inj in H.
      apply py_eq_str_true.
      apply (singleton_bool_inj "power"). exact H.
    + intros ->. reflexivity.
  - intros Hne. destruct (py_eq_str v "ON") eqn:E; [|reflexivity].
    apply py_eq_str_true in E. contradiction.
Qed.

Ltac power_off_cases w :=
  unfold outcome, events; rewrite power_off_run;
  destruct (_login_creds _ _) as [c|e]; [|cbn; try tauto; intros; event_cases];
  unfold precheck_off, precheck_events, button_run; cbn zeta;
  destruct (remote w _ _ get_host_power_status) as [pwr|err] eqn:Estatus;
  [ destruct (py_eq_str pwr "ON") eqn:Eon; cbn [negb] | ];
  try (destruct (remote w _ _ (button _)) as [b|berr] eqn:Ebutton);
  cbn [fst snd app].

(** C5: when the pre-check of [power_off] finds the host off (the status
    query returns a value other than "ON"), [power_off] returns
    [{power_state: False}] and makes no remote call that changes the power
    state: no button is pressed or held. *)
Theorem power_off_already_off w hold kwargs h ilo v :
  In (ECall ilo get_host_power_status (Returns v))
     (events (power_off w hold kwargs) h) ->
  py_eq_str v "ON" = false ->
  outcome (power_off w hold kwargs) h
    = Ok (PDict {[ "power_state" := PBool false ]})
  /\ forall e, In e (events (power_off w hold kwargs) h) ->
               is_power_change e = false.
Proof.
  power_off_cases w; intros Hin Hoff.
  all: try (exfalso; unfold button in *; destruct (truthy hold);
            event_cases; congruence).
  split; [reflexivity|].
  intros e He. event_cases; subst; reflexivity.
Qed.

(** C7: when the press or hold command of [power_off] raises the protocol
    error, [power_off] returns [{power_state: None}], which is not the
    empty mapping. *)
Theorem power_off_button_error_sentinel w hold kwargs h ilo m msg :
  is_button m = true ->
  In (ECall ilo m (RaisesIloError msg)) (events (power_off w hold kwargs) h) ->
  outcome (power_off w hold kwargs) h = Ok (PDict {[ "power_state" := PNone ]})
  /\ outcome (power_off w hold kwargs) h <> Ok (PDict ∅).
Proof.
  intros Hm. revert Hm.
  power_off_cases w; intros Hm Hin.
  all: event_cases; try discriminate.
  all: split; [reflexivity|].
  all: intros H; apply Ok_inj in H;
    apply (f_equal (fun v => match v with
                             | PDict d => d !! "power_state"
                             | _ => None
                             end)) in H;
    rewrite lookup_singleton_eq, lookup_empty in H; discriminate.
Qed.

(** C10: when the status query of the pre-check of [power_off] raises the
    protocol error, so that [get_power_status] yields the empty mapping,
    [power_off] goes on and sends the press or hold command, on its own
    client. *)
Theorem power_off_precheck_failure_proceeds w hold kwargs h ilo msg :
  In (ECall ilo get_host_power_status (RaisesIloError msg))
     (events (power_off w hold kwargs) h) ->
  exists own r,
    In (ECall own (button hold) r) (events (power_off w hold kwargs) h)
    /\ head (constructed (events (power_off w hold kwargs) h)) = Some own.
Proof.
  power_off_cases w; intros Hin.
  all: try (exfalso; unfold button in *; destruct (truthy hold);
            event_cases; congruence).
  all: eexists _, _; split; [|reflexivity]; cbn; tauto.
Qed.

(** C8: when the remote call of [list_users] returns a value, that value
    is the result; the call is the summary one when [detailed] is absent
    or falsy, and then the result is a list; it is the detailed one when
    [detailed] is truthy, and then the result is a mapping. *)
Theorem list_users_shape w kwargs h ilo m v :
  users_contract w ->
  In (ECall ilo m (Returns v)) (events (list_users w kwargs) h) ->
  outcome (list_users w kwargs) h = Ok v
  /\ (truthy (dict_get kwargs "detailed") = false ->
      m = get_all_users /\ is_list v = true)
  /\ (truthy (dict_get kwargs "detailed") = true ->
      m = get_all_user_info /\ is_dict v = true).
Proof.
  intros Hlib. unfold outcome, events. rewrite list_users_run.
  destruct (truthy (dict_get kwargs "detailed")); unfold one_call_run;
    (destruct (_login_creds _ _) as [c|e]; [|intros []]);
    cbn zeta; destruct (remote _ _ _ _) as [v'|msg] eqn:Er; cbn [fst snd];
    intros H; event_cases; try discriminate.
  - apply Hlib in Er. split; [reflexivity|]. split; [discriminate|auto].
  - apply Hlib in Er. split; [reflexivity|]. split; [auto|discriminate].
Qed.

(** C9: when the three remote calls of [product_info] return the product
    name and two mappings, the result is one mapping whose keys are
    [product_name], the keys of the firmware mapping and the keys of the
    asset-tag mapping; on a shared key the firmware mapping, merged last,
    wins over the asset-tag mapping, which wins over the product name. *)
Theorem product_info_union w kwargs h ilo pn fw tag :
  In (ECall ilo get_product_name (Returns pn))
     (events (product_info w kwargs) h) ->
  In (ECall ilo get_fw_version (Returns (PDict fw)))
     (events (product_info w kwargs) h) ->
  In (ECall ilo get_asset_tag (Returns (PDict tag)))
     (events (product_info w kwargs) h) ->
  exists d : gmap string pyval,
    outcome (product_info w kwargs) h = Ok (PDict d)
    /\ dom d = {[ "product_name" ]} ∪ dom fw ∪ dom tag
    /\ (forall k x, fw !! k = Some x -> d !! k = Some x)
    /\ (forall k x, fw !! k = None -> tag !! k = Some x -> d !! k = Some x)
    /\ (fw !! "product_name" = None -> tag !! "product_name" = None ->
        d !! "product_name" = Some pn).
Proof.
  unfold outcome, events. rewrite product_info_run.
  destruct (_login_creds _ _) as [c|e]; [|intros []].
  cbn zeta.
  destruct (remote w _ _ get_product_name) as [v1|m1] eqn:E1;
    [destruct (remote w _ _ get_fw_version) as [v2|m2] eqn:E2;
      [destruct (remote w _ _ get_asset_tag) as [v3|m3] eqn:E3|]|];
    cbn [fst snd]; intros H1 H2 H3; event_cases; try discriminate.
  exists (dict_update (dict_update {[ "product_name" := pn ]} tag) fw).
  unfold dict_update. split; [reflexivity|]. split; [|split; [|split]].
  - rewrite !dom_union_L, dom_singleton_L.
    apply set_eq. intros k. rewrite !elem_of_union. tauto.
  - intros k x Hk. apply lookup_union_Some_l. exact Hk.
  - intros k x Hfw Htag. rewrite lookup_union_r by exact Hfw.
    apply lookup_union_Some_l. exact Htag.
  - intros Hfw Htag. rewrite lookup_union_r by exact Hfw.
    rewrite lookup_union_r by exact Htag. apply lookup_singleton_eq.
Qed.

(** ** Clients of a call *)

Lemma login_creds_delay w kw :
  _login_creds w (delete "delay" kw) = _login_creds w kw.
Proof.
  unfold _login_creds. cbn [forallb].
  rewrite !lookup_delete_ne by discriminate. reflexivity.
Qed.

Lemma new_ilo_creds h c kw : creds_of (new_ilo h c kw) = c.
Proof. destruct c; reflexivity. Qed.

Lemma clients_one h c kw (l : list Ilo) (n : nat) :
  l = [new_ilo h c kw] ->
  1 <= n ->
  length l = 1
  /\ (forall ilo, In ilo l ->
         creds_of ilo = c /\ length h <= ilo_id ilo < length h + n)
  /\ NoDup (map ilo_id l).
Proof.
  intros -> Hn. split; [reflexivity|]. split.
  - intros ilo [<-|[]]. split; [apply new_ilo_creds|cbn; lia].
  - cbn. apply NoDup_singleton.
Qed.

Lemma clients_two h c kw (l : list Ilo) (n : nat) :
  l = [new_ilo h c kw; new_ilo (h ++ [EConstruct (new_ilo h c kw)]) c kw] ->
  2 <= n ->
  length l = 2
  /\ (forall ilo, In ilo l ->
         creds_of ilo = c /\ length h <= ilo_id ilo < length h + n)
  /\ NoDup (map ilo_id l).
Proof.
  intros -> Hn. split; [reflexivity|]. split.
  - intros ilo [<-|[<-|[]]]; (split; [apply new_ilo_creds|]);
      cbn; rewrite ?length_app; cbn; lia.
  - cbn. rewrite length_app. cbn. apply NoDup_cons. split.
    + intros Hin. apply list_elem_of_In in Hin. destruct Hin as [Hin|[]]. lia.
    + apply NoDup_singleton.
Qed.

Ltac one_call_clients :=
  unfold one_call_run;
  match goal with Hc : _login_creds _ _ = Ok _ |- _ =>
    rewrite login_creds_delay, Hc end;
  cbn zeta; destruct (remote _ _ _ _); cbn [snd];
  (split; [eapply clients_one; [reflexivity|cbn; lia]|]);
  intros ? ? ? Hin; event_cases; cbn; tauto.

(** C4, as the code has it: a call of a dispatcher whose credentials
    resolve constructs one client, and a call of [power_off] two: its own
    and the one of the [get_power_status] it calls.  Every client of the
    call is built from the resolved credentials, its identity is new (it
    lies between the length of the history before the call and the one
    after it), no two clients are the same object, and every remote call
    of the run is made on a client constructed in that run. *)
Theorem dispatch_clients w op kwargs h c :
  _login_creds w kwargs = Ok c ->
  (length (constructed (events (dispatch w op kwargs) h)) = clients_per_call op
   /\ (forall ilo, In ilo (constructed (events (dispatch w op kwargs) h)) ->
                   creds_of ilo = c
                   /\ length h <= ilo_id ilo
                                < length h + length (events (dispatch w op kwargs) h))
   /\ NoDup (map ilo_id (constructed (events (dispatch w op kwargs) h))))
  /\ (forall ilo m r, In (ECall ilo m r) (events (dispatch w op kwargs) h) ->
                      In ilo (constructed (events (dispatch w op kwargs) h))).
Proof.
  intros Hc. destruct op; cbn [dispatch clients_per_call]; unfold events.
  - rewrite get_power_status_run. one_call_clients.
  - rewrite power_on_run, login_creds_delay, Hc. cbn zeta. cbn [snd].
    split; [eapply clients_one; [reflexivity|cbn; lia]|].
    intros ? ? ? Hin; event_cases; cbn; tauto.
  - rewrite power_off_run, login_creds_delay, Hc.
    unfold precheck_off, precheck_events, button_run. cbn zeta.
    destruct (remote w _ _ get_host_power_status) as [pwr|err];
      [destruct (py_eq_str pwr "ON"); cbn [negb]|];
      try (destruct (remote w _ _ (button _)));
      cbn [fst snd app];
      (split; [eapply clients_two; [reflexivity|cbn; lia]|]).
      all: intros ? ? ? Hin; event_cases; cbn.
      all: tauto.
  - rewrite list_users_run. destruct (truthy _); one_call_clients.
  - rewrite product_info_run, login_creds_delay, Hc. unfold product_log.
    cbn zeta.
    destruct (remote w _ _ get_product_name);
      [destruct (remote w _ _ get_fw_version);
        [destruct (remote w _ _ get_asset_tag)|]|];
      cbn [snd];
      (split; [eapply clients_one; [reflexivity|cbn; lia]|]);
      intros ? ? ? Hin; event_cases; cbn; tauto.
  - rewrite network_settings_run. one_call_clients.
  - rewrite get_boot_order_run. one_call_clients.
Qed.

(** ** The credential resolver *)

Lemma login_creds_explicit w kwargs :
  explicit kwargs = true ->
  _login_creds w kwargs =
  match global_config w with
  | None => Raise (NameError "config")
  | Some config => read_creds config
  end.
Proof.
  unfold explicit, _login_creds, lookup_config, read_creds. intros ->.
  destruct (global_config w) as [config|]; [|reflexivity]. cbn [rbind].
  destruct (py_getitem config "login"); [|reflexivity]. cbn [rbind].
  destruct (py_getitem config "password"); reflexivity.
Qed.

Lemma login_creds_profile w kwargs name :
  explicit kwargs = false ->
  kwargs !! "profile" = Some name ->
  _login_creds w kwargs = read_creds (config_option w name).
Proof.
  unfold explicit, _login_creds. intros -> ->. reflexivity.
Qed.

Lemma login_creds_default w kwargs :
  explicit kwargs = false ->
  kwargs !! "profile" = None ->
  _login_creds w kwargs =
  Ok (mkCreds (config_option w (PStr "hpilo.login"))
              (config_option w (PStr "hpilo.password"))
              (config_option w (PStr "hpilo.hostname"))).
Proof.
  unfold explicit, _login_creds. intros -> ->. reflexivity.
Qed.

(** Credentials read from a source are the three fields of that source. *)
Lemma read_creds_fields src c :
  read_creds src = Ok c ->
  py_getitem src "login" = Ok (c_login c)
  /\ py_getitem src "password" = Ok (c_password c)
  /\ py_getitem src "hostname" = Ok (c_hostname c).
Proof.
  unfold read_creds.
  destruct (py_getitem src "login"); [|discriminate]. cbn [rbind].
  destruct (py_getitem src "password"); [|discriminate]. cbn [rbind].
  destruct (py_getitem src "hostname"); [|discriminate]. cbn [rbind].
  intros H. apply Ok_inj in H. subst c. auto.
Qed.

(** With the three explicit credentials among the keywords, the values
    supplied for them have no part in the result. *)
Lemma login_creds_explicit_blind w kwargs kwargs' :
  explicit kwargs = true -> explicit kwargs' = true ->
  _login_creds w kwargs = _login_creds w kwargs'.
Proof.
  intros H H'. rewrite !login_creds_explicit by assumption. reflexivity.
Qed.

(** C1, at the explicit path: called with [login], [password] and
    [hostname], [_login] does not use the values supplied.  It raises
    [NameError], the name [config] being unbound; and where that name is
    bound to a dictionary, the client gets the fields of that dictionary. *)
Theorem login_explicit_ignores_supplied :
  _login (Mock.world (Mock.device "ON")) Mock.explicit_kwargs []
    = (Raise (NameError "config"), [])
  /\ outcome (_login (Mock.world_with_config (Mock.device "ON"))
                Mock.explicit_kwargs) []
     = Ok (mkIlo 0 (PStr "other-ilo.oob.local") (PStr "root") (PStr "hunter2")
             (PBool false)).
Proof. split; vm_compute; reflexivity. Qed.

(** ** Protocol errors *)

Lemma append_assoc (a b c : string) : (a +:+ b) +:+ c = a +:+ (b +:+ c).
Proof.
  induction a as [|x a IH]; [reflexivity|].
  change (String x ((a +:+ b) +:+ c) = String x (a +:+ (b +:+ c))).
  rewrite IH. reflexivity.
Qed.

Lemma append_empty_r (a : string) : a +:+ "" = a.
Proof.
  induction a as [|x a IH]; [reflexivity|].
  change (String x (a +:+ "") = String x a).
  rewrite IH. reflexivity.
Qed.

Lemma log_text_contains (what hn msg : string) :
  contains hn (what +:+ hn +:+ ": " +:+ msg)
  /\ contains msg (what +:+ hn +:+ ": " +:+ msg).
Proof.
  split.
  - exists what, (": " +:+ msg). reflexivity.
  - exists (what +:+ hn +:+ ": "), "".
    rewrite append_empty_r, !append_assoc. reflexivity.
Qed.

Lemma one_call_caught w kw h m what shape ilo m' msg :
  In (ECall ilo m' (RaisesIloError msg)) (snd (one_call_run w kw h m what shape)) ->
  caught w (one_call_run w kw h m what shape) ilo msg
  /\ fst (one_call_run w kw h m what shape) = Ok (PDict ∅).
Proof.
  unfold caught, one_call_run.
  destruct (_login_creds _ _) as [c|e]; [|intros []].
  cbn zeta. destruct (remote _ _ _ _) as [v|err]; cbn [fst snd];
    intros Hin; event_cases; try discriminate.
  split; [|reflexivity]. split; [eauto|].
  eexists. split; [right; right; left; reflexivity|].
  apply log_text_contains.
Qed.

(** X18: every dispatcher but [power_on] catches the protocol error of any of
    its remote calls: it logs the host name and the error and returns the
    empty mapping, or a mapping with [power_state] in [power_off]. *)
Lemma dispatch_catches w op kwargs h ilo m msg :
  op <> Op_power_on ->
  In (ECall ilo m (RaisesIloError msg)) (events (dispatch w op kwargs) h) ->
  caught w (dispatch w op kwargs h) ilo msg
  /\ match op with
     | Op_power_off _ =>
         is_button m = true ->
         outcome (dispatch w op kwargs) h = Ok (PDict {[ "power_state" := PNone ]})
     | _ => outcome (dispatch w op kwargs) h = Ok (PDict ∅)
     end.
Proof.
  intros Hop. destruct op; try congruence; cbn [dispatch]; unfold outcome, events.
  - rewrite get_power_status_run. apply one_call_caught.
  - rewrite power_off_run. unfold caught.
    destruct (_login_creds _ _) as [c|e]; [|intros []].
    unfold precheck_off, precheck_events, button_run. cbn zeta.
    destruct (remote w _ _ get_host_power_status) as [pwr|err];
      [destruct (py_eq_str pwr "ON"); cbn [negb]|];
      try (destruct (remote w _ _ (button _)) as [b|berr]);
      cbn [fst snd app]; intros Hin; event_cases; try discriminate.
    all: (split; [split; [eauto|]|]).
    all: try (intros Hm; first [reflexivity | discriminate Hm]).
    all: try (eexists; split; [|apply log_text_contains]; cbn; tauto).
    all: unfold button in *; destruct (truthy hold); try discriminate.
  - rewrite list_users_run. destruct (truthy _); apply one_call_caught.
  - rewrite product_info_run. unfold caught, product_log.
    destruct (_login_creds _ _) as [c|e]; [|intros []]. cbn zeta.
    destruct (remote w _ _ get_product_name);
      [destruct (remote w _ _ get_fw_version);
        [destruct (remote w _ _ get_asset_tag)|]|];
      cbn [fst snd]; intros Hin; event_cases; try discriminate.
    all: (split; [split; [eauto|]|reflexivity]).
    all: eexists; split; [|apply log_text_contains]; cbn; tauto.
  - rewrite network_settings_run. apply one_call_caught.
  - rewrite get_boot_order_run. apply one_call_caught.
Qed.

(** In [power_on] the protocol error of the remote call is not caught:
    [NameError] leaves the function and nothing is logged. *)
Lemma power_on_error_escapes w kwargs h ilo m msg :
  In (ECall ilo m (RaisesIloError msg)) (events (power_on w kwargs) h) ->
  outcome (power_on w kwargs) h = Raise (NameError "IloError")
  /\ forall text, ~ In (ELogError text) (events (power_on w kwargs) h).
Proof.
  unfold outcome, events. rewrite power_on_run.
  destruct (_login_creds _ _) as [c|e]; [|intros []]. cbn zeta.
  destruct (remote _ _ _ _); cbn [fst snd]; intros Hin; event_cases;
    try discriminate.
  split; [reflexivity|].
  intros text [H|[H|[]]]; discriminate H.
Qed.

(** When the remote call of [power_on] returns, [power_on] returns
    [None]. *)
Lemma power_on_success_None w kwargs h ilo m v :
  In (ECall ilo m (Returns v)) (events (power_on w kwargs) h) ->
  outcome (power_on w kwargs) h = Ok PNone.
Proof.
  unfold outcome, events. rewrite power_on_run.
  destruct (_login_creds _ _) as [c|e]; [|intros []]. cbn zeta.
  destruct (remote _ _ _ _); cbn [fst snd]; intros Hin; event_cases;
    try discriminate.
  reflexivity.
Qed.

(** C2, at [power_on]: on a host that cannot be reached, the protocol
    error of the remote call makes [power_on] raise [NameError]; no
    message is logged and no mapping is returned. *)
Theorem power_on_protocol_error_escapes :
  power_on (Mock.world Mock.unreachable) ∅ [] =
  (Raise (NameError "IloError"),
   let ilo := mkIlo 0 (PStr "server1-ilo.oob.local") (PStr "Administrator")
                (PStr "password") (PBool false) in
   [EConstruct ilo; ECall ilo (set_host_power true) (RaisesIloError "timed out")]).
Proof. vm_compute. reflexivity. Qed.

(** C3, at a successful call: the remote request is accepted, and
    [power_on] returns [None] and not [{power_state: True}]. *)
Theorem power_on_success_returns_None :
  power_on (Mock.world (Mock.device "OFF")) ∅ [] =
  (Ok PNone,
   let ilo := mkIlo 0 (PStr "server1-ilo.oob.local") (PStr "Administrator")
                (PStr "password") (PBool false) in
   [EConstruct ilo; ECall ilo (set_host_power true) (Returns PNone)])
  /\ outcome (power_on (Mock.world (Mock.device "OFF")) ∅) []
     <> Ok (PDict {[ "power_state" := PBool true ]}).
Proof. split; [vm_compute; reflexivity|]. vm_compute. discriminate. Qed.

(** C4 fails at [power_off]: one call constructs two clients. *)
Lemma power_off_constructs_two_clients :
  constructed (events (dispatch (Mock.world (Mock.device "ON"))
                         (Op_power_off (PBool false)) ∅) []) =
  [ mkIlo 0 (PStr "server1-ilo.oob.local") (PStr "Administrator")
      (PStr "password") (PBool false);
    mkIlo 1 (PStr "server1-ilo.oob.local") (PStr "Administrator")
      (PStr "password") (PBool false) ]
  /\ length (constructed (events (dispatch (Mock.world (Mock.device "ON"))
                                    (Op_power_off (PBool false)) ∅) [])) <> 1.
Proof. split; vm_compute; [reflexivity|discriminate]. Qed.

(** ** The theorems at concrete inputs *)

Lemma dispatch_clients_witness :
  _login_creds (Mock.world (Mock.device "ON")) Mock.profile_kwargs
    = Ok (mkCreds (PStr "Administrator") (PStr "password_2")
            (PStr "server2-ilo.oob.local"))
  /\ length (constructed (events (dispatch (Mock.world (Mock.device "ON"))
                                    (Op_power_off (PBool true))
                                    Mock.profile_kwargs) [])) = 2.
Proof.
  split; [vm_compute; reflexivity|].
  refine (proj1 (proj1 (dispatch_clients (Mock.world (Mock.device "ON"))
           (Op_power_off (PBool true)) Mock.profile_kwargs []
           (mkCreds (PStr "Administrator") (PStr "password_2")
              (PStr "server2-ilo.oob.local")) _))).
  vm_compute. reflexivity.
Defined.

Lemma get_power_status_ON_iff_witness :
  In (ECall (mkIlo 0 (PStr "server1-ilo.oob.local") (PStr "Administrator")
               (PStr "password") (PBool false))
        get_host_power_status (Returns (PStr "ON")))
     (events (get_power_status (Mock.world (Mock.device "ON")) ∅) [])
  /\ outcome (get_power_status (Mock.world (Mock.device "ON")) ∅) []
     = Ok (PDict {[ "power" := PBool true ]}).
Proof.
  split; [vm_compute; tauto|].
  refine (proj1 (get_power_status_ON_iff (Mock.world (Mock.device "ON")) ∅ []
           (mkIlo 0 (PStr "server1-ilo.oob.local") (PStr "Administrator")
              (PStr "password") (PBool false)) (PStr "ON") _)).
  vm_compute. tauto.
Defined.

Lemma power_off_already_off_witness :
  In (ECall (mkIlo 1 (PStr "server1-ilo.oob.local") (PStr "Administrator")
               (PStr "password") (PBool false))
        get_host_power_status (Returns (PStr "OFF")))
     (events (power_off (Mock.world (Mock.device "OFF")) (PBool false) ∅) [])
  /\ py_eq_str (PStr "OFF") "ON" = false
  /\ outcome (power_off (Mock.world (Mock.device "OFF")) (PBool false) ∅) []
     = Ok (PDict {[ "power_state" := PBool false ]}).
Proof.
  split; [vm_compute; tauto|]. split; [reflexivity|].
  refine (proj1 (power_off_already_off (Mock.world (Mock.device "OFF"))
           (PBool false) ∅ []
           (mkIlo 1 (PStr "server1-ilo.oob.local") (PStr "Administrator")
              (PStr "password") (PBool false)) (PStr "OFF") _ _)).
  - vm_compute. tauto.
  - reflexivity.
Defined.

Lemma power_off_button_error_sentinel_witness :
  is_button hold_pwr_btn = true
  /\ In (ECall (mkIlo 0 (PStr "server1-ilo.oob.local") (PStr "Administrator")
                  (PStr "password") (PBool false))
           hold_pwr_btn (RaisesIloError "button unavailable"))
        (events (power_off (Mock.world Mock.stuck_button) (PBool true) ∅) [])
  /\ outcome (power_off (Mock.world Mock.stuck_button) (PBool true) ∅) []
     = Ok (PDict {[ "power_state" := PNone ]}).
Proof.
  split; [reflexivity|]. split; [vm_compute; tauto|].
  refine (proj1 (power_off_button_error_sentinel (Mock.world Mock.stuck_button)
           (PBool true) ∅ []
           (mkIlo 0 (PStr "server1-ilo.oob.local") (PStr "Administrator")
              (PStr "password") (PBool false))
           hold_pwr_btn "button unavailable" _ _)).
  - reflexivity.
  - vm_compute. tauto.
Defined.

Lemma power_off_precheck_failure_proceeds_witness :
  In (ECall (mkIlo 1 (PStr "server1-ilo.oob.local") (PStr "Administrator")
               (PStr "password") (PBool false))
        get_host_power_status (RaisesIloError "syntax error"))
     (events (power_off (Mock.world Mock.blind) (PBool false) ∅) [])
  /\ exists own r,
       In (ECall own (button (PBool false)) r)
          (events (power_off (Mock.world Mock.blind) (PBool false) ∅) [])
       /\ head (constructed
                  (events (power_off (Mock.world Mock.blind) (PBool false) ∅) []))
          = Some own.
Proof.
  split; [vm_compute; tauto|].
  apply (power_off_precheck_failure_proceeds (Mock.world Mock.blind)
           (PBool false) ∅ []
           (mkIlo 1 (PStr "server1-ilo.oob.local") (PStr "Administrator")
              (PStr "password") (PBool false))
           "syntax error").
  vm_compute. tauto.
Defined.

Lemma list_users_shape_witness :
  users_contract (Mock.world (Mock.device "ON"))
  /\ In (ECall (mkIlo 0 (PStr "server1-ilo.oob.local") (PStr "Administrator")
                  (PStr "password") (PBool false))
           get_all_user_info (Returns Mock.user_info))
        (events (list_users (Mock.world (Mock.device "ON"))
                   {[ "detailed" := PBool true ]}) [])
  /\ outcome (list_users (Mock.world (Mock.device "ON"))
                {[ "detailed" := PBool true ]}) []
     = Ok Mock.user_info.
Proof.
  assert (Hlib : users_contract (Mock.world (Mock.device "ON"))).
  { intros h ilo v. split; cbn; intros H; injection H as <-; reflexivity. }
  split; [exact Hlib|]. split; [vm_compute; tauto|].
  refine (proj1 (list_users_shape (Mock.world (Mock.device "ON"))
           {[ "detailed" := PBool true ]} []
           (mkIlo 0 (PStr "server1-ilo.oob.local") (PStr "Administrator")
              (PStr "password") (PBool false))
           get_all_user_info Mock.user_info Hlib _)).
  vm_compute. tauto.
Defined.

Lemma product_info_union_witness :
  In (ECall (mkIlo 0 (PStr "server1-ilo.oob.local") (PStr "Administrator")
               (PStr "password") (PBool false))
        get_product_name (Returns (PStr "ProLiant DL380 Gen9")))
     (events (product_info (Mock.world (Mock.device "ON")) ∅) [])
  /\ In (ECall (mkIlo 0 (PStr "server1-ilo.oob.local") (PStr "Administrator")
                  (PStr "password") (PBool false))
           get_fw_version (Returns (PDict Mock.firmware)))
        (events (product_info (Mock.world (Mock.device "ON")) ∅) [])
  /\ In (ECall (mkIlo 0 (PStr "server1-ilo.oob.local") (PStr "Administrator")
                  (PStr "password") (PBool false))
           get_asset_tag (Returns (PDict Mock.tag)))
        (events (product_info (Mock.world (Mock.device "ON")) ∅) [])
  /\ exists d : gmap string pyval,
       outcome (product_info (Mock.world (Mock.device "ON")) ∅) [] = Ok (PDict d)
       /\ dom d = {[ "product_name" ]} ∪ dom Mock.firmware ∪ dom Mock.tag.
Proof.
  assert (H1 : In (ECall (mkIlo 0 (PStr "server1-ilo.oob.local")
                            (PStr "Administrator") (PStr "password") (PBool false))
                     get_product_name (Returns (PStr "ProLiant DL380 Gen9")))
                  (events (product_info (Mock.world (Mock.device "ON")) ∅) []))
    by (vm_compute; tauto).
  assert (H2 : In (ECall (mkIlo 0 (PStr "server1-ilo.oob.local")
                            (PStr "Administrator") (PStr "password") (PBool false))
                     get_fw_version (Returns (PDict Mock.firmware)))
                  (events (product_info (Mock.world (Mock.device "ON")) ∅) []))
    by (vm_compute; tauto).
  assert (H3 : In (ECall (mkIlo 0 (PStr "server1-ilo.oob.local")
                            (PStr "Administrator") (PStr "password") (PBool false))
                     get_asset_tag (Returns (PDict Mock.tag)))
                  (events (product_info (Mock.world (Mock.device "ON")) ∅) []))
    by (vm_compute; tauto).
  split; [exact H1|]. split; [exact H2|]. split; [exact H3|].
  destruct (product_info_union _ _ _ _ _ _ _ H1 H2 H3) as (d & Hd & Hdom & _).
  exists d. split; assumption.
Defined.


(** * Further properties of the module *)

(** ** Credentials *)

(** X1: called with a profile and without the three explicit credentials,
    [_login] builds its client from the [login], [password] and [hostname]
    fields of the profile that [config.option] returns for that name, and
    does nothing else. *)
Theorem login_profile_client w kw h name d lg pw hn :
  explicit kw = false ->
  kw !! "profile" = Some name ->
  config_option w name = PDict d ->
  d !! "login" = Some lg ->
  d !! "password" = Some pw ->
  d !! "hostname" = Some hn ->
  _login w kw h =
  (Ok (mkIlo (length h) hn lg pw (default (PBool false) (kw !! "delay"))),
   [EConstruct (mkIlo (length h) hn lg pw (default (PBool false) (kw !! "delay")))]).
Proof.
  intros He Hp Hd Hlg Hpw Hhn.
  rewrite login_run, login_creds_delay.
  rewrite (login_creds_profile w kw name He Hp), Hd.
  unfold read_creds, py_getitem. rewrite Hlg, Hpw, Hhn. reflexivity.
Qed.

(** X2: called without a profile and without the three explicit
    credentials, [_login] always succeeds: the client is built from the
    options [hpilo.hostname], [hpilo.login] and [hpilo.password], whatever
    [config.option] returns for them. *)
Theorem login_default_client w kw h :
  explicit kw = false ->
  kw !! "profile" = None ->
  _login w kw h =
  (Ok (mkIlo (length h)
         (config_option w (PStr "hpilo.hostname"))
         (config_option w (PStr "hpilo.login"))
         (config_option w (PStr "hpilo.password"))
         (default (PBool false) (kw !! "delay"))),
   [EConstruct
      (mkIlo (length h)
         (config_option w (PStr "hpilo.hostname"))
         (config_option w (PStr "hpilo.login"))
         (config_option w (PStr "hpilo.password"))
         (default (PBool false) (kw !! "delay")))]).
Proof.
  intros He Hp.
  rewrite login_run, login_creds_delay.
  rewrite (login_creds_default w kw He Hp). reflexivity.
Qed.

(** X3: explicit credentials count only when all three are there.  With
    one or two of [login], [password] and [hostname] among the keywords,
    the credentials are those of the same call without them. *)
Theorem partial_explicit_ignored w kw :
  explicit kw = false ->
  _login_creds w kw =
  _login_creds w (delete "login" (delete "password" (delete "hostname" kw))).
Proof.
  intros He. unfold explicit in He. unfold _login_creds. rewrite He.
  cbn [forallb]. rewrite lookup_delete_eq.
  rewrite bool_decide_eq_false_2 by (intros [x Hx]; discriminate Hx).
  cbn [andb]. rewrite !lookup_delete_ne by discriminate. reflexivity.
Qed.


(** ** All the dispatchers *)

(** The run of an operation, split by the result of the credential
    resolver and by what every remote call of the run answers. *)
Ltac dispatch_cases w op :=
  destruct op; cbn [dispatch]; unfold outcome, events;
  [ rewrite get_power_status_run; unfold one_call_run
  | rewrite power_on_run
  | rewrite power_off_run; unfold precheck_off, precheck_events, button_run
  | rewrite list_users_run; destruct (truthy (dict_get _ "detailed"));
    unfold one_call_run
  | rewrite product_info_run; unfold product_log
  | rewrite network_settings_run; unfold one_call_run
  | rewrite get_boot_order_run; unfold one_call_run ];
  rewrite ?login_creds_delay;
  destruct (_login_creds w _) as [?|?] eqn:Ecreds; cbn zeta;
  repeat match goal with
  | |- context [match remote w ?h ?i ?m with _ => _ end] =>
      destruct (remote w h i m) eqn:?; cbn [fst snd app negb]
  | |- context [if py_eq_str ?v "ON" then (_, _) else _] =>
      destruct (py_eq_str v "ON") eqn:?; cbn [fst snd app negb]
  | |- context [if negb (py_eq_str ?v "ON") then _ else _] =>
      destruct (py_eq_str v "ON") eqn:?; cbn [fst snd app negb]
  end;
  cbn [fst snd app].

(** X5: when the credentials do not resolve, every dispatcher raises the
    error of the resolver: no client is constructed, no remote call is
    made and nothing is logged. *)
Theorem resolution_failure_propagates w op kw h e :
  _login_creds w kw = Raise e ->
  dispatch w op kw h = (Raise e, []).
Proof.
  intros He. destruct op; cbn [dispatch].
  - rewrite get_power_status_run. unfold one_call_run.
    rewrite login_creds_delay, He. reflexivity.
  - rewrite power_on_run, login_creds_delay, He. reflexivity.
  - rewrite power_off_run, login_creds_delay, He. reflexivity.
  - rewrite list_users_run. unfold one_call_run.
    rewrite login_creds_delay, He. destruct (truthy _); reflexivity.
  - rewrite product_info_run, login_creds_delay, He. reflexivity.
  - rewrite network_settings_run. unfold one_call_run.
    rewrite login_creds_delay, He. reflexivity.
  - rewrite get_boot_order_run. unfold one_call_run.
    rewrite login_creds_delay, He. reflexivity.
Qed.

(** X6: the keyword [delay] of a dispatcher call reaches the client: every
    client of the call has [delayed] set to that keyword, and to [False]
    when the keyword is absent. *)
Theorem dispatch_delayed_flag w op kw h ilo :
  In ilo (constructed (events (dispatch w op kw) h)) ->
  delayed ilo = default (PBool false) (kw !! "delay").
Proof.
  dispatch_cases w op; cbn; intros Hin;
    repeat (destruct Hin as [<-|Hin]; [reflexivity|]); destruct Hin.
Qed.

Ltac member_cases H :=
  repeat (destruct H as [H|H]; [try discriminate H|]);
  try solve [destruct H].

(** X7: the operations that read from the device never change its power
    state: no run of [get_power_status], [list_users], [product_info],
    [network_settings] or [get_boot_order] presses or holds the button or
    sets the host power. *)
Theorem queries_never_change_power w op kw h e :
  is_query op = true ->
  In e (events (dispatch w op kw) h) ->
  is_power_change e = false.
Proof.
  dispatch_cases w op; intros Hq Hin; try discriminate Hq;
    repeat (destruct Hin as [<-|Hin]; [reflexivity|]); destruct Hin.
Qed.

Ltac pick_event := (left; reflexivity) + (right; pick_event).

(** X8: a dispatcher logs only failures.  Every error message of a run
    comes with a remote call of that run that raised the protocol error,
    and holds the host name of the client of that call and the text of
    the error. *)
Theorem log_only_on_error w op kw h text :
  In (ELogError text) (events (dispatch w op kw) h) ->
  exists ilo m msg,
    In (ECall ilo m (RaisesIloError msg)) (events (dispatch w op kw) h)
    /\ contains (format_value w (hostname ilo)) text
    /\ contains msg text.
Proof.
  dispatch_cases w op; intros Hin; member_cases Hin.
  all: injection Hin as <-.
  all: eexists _, _, _; (split; [pick_event|]); apply log_text_contains.
Qed.

(** X9: no remote call is made twice.  A call whose credentials resolve
    makes at least one remote call and at most one, except [power_off]
    with at most two and [product_info] with at most three, and no method
    of the client is called more than once. *)
Theorem dispatch_calls_bounded w op kw h c :
  _login_creds w kw = Ok c ->
  1 <= length (calls (events (dispatch w op kw) h)) <= max_calls op
  /\ NoDup (calls (events (dispatch w op kw) h)).
Proof.
  dispatch_cases w op; intros Hc; try discriminate Hc; cbn.
  all: split; [lia|].
  all: repeat (apply NoDup_cons; split;
               [intros Hin; apply list_elem_of_In in Hin; cbn in Hin;
                unfold button in Hin; try destruct (truthy _);
                intuition discriminate|]).
  all: apply NoDup_nil_2.
Qed.

(** X10: every dispatcher but [power_off] stops at the first remote call
    that raises the protocol error: no remote call follows it in the run.
    In [product_info] a failed query of the product name or of the
    firmware keeps the later queries from being made. *)
Theorem stops_at_first_error w op kw h ilo m msg :
  (forall hold, op <> Op_power_off hold) ->
  In (ECall ilo m (RaisesIloError msg)) (events (dispatch w op kw) h) ->
  exists pre post,
    events (dispatch w op kw) h = pre ++ ECall ilo m (RaisesIloError msg) :: post
    /\ calls post = [].
Proof.
  dispatch_cases w op; intros Hop Hin;
    try (exfalso; eapply Hop; reflexivity);
    member_cases Hin; injection Hin as <- <- <-.
  all: first [ eexists [_], _; split; reflexivity
             | eexists [_; _], _; split; reflexivity
             | eexists [_; _; _], _; split; reflexivity ].
Qed.



(** ** [power_off] *)

(** X12: what [power_off] returns.  A result of [power_off] is
    [{power_state: False}] or [{power_state: None}]: never the empty
    mapping, and never a true power state. *)
Theorem power_off_result_shape w hold kw h v :
  outcome (power_off w hold kw) h = Ok v ->
  v = PDict {[ "power_state" := PBool false ]}
  \/ v = PDict {[ "power_state" := PNone ]}.
Proof.
  unfold outcome. rewrite power_off_run.
  destruct (_login_creds _ _); [|discriminate].
  unfold precheck_off, precheck_events, button_run. cbn zeta.
  destruct (remote w _ _ get_host_power_status) as [pwr|err];
    [destruct (py_eq_str pwr "ON"); cbn [negb]|];
    try (destruct (remote w _ _ (button _)));
    cbn [fst]; intros H; apply Ok_inj in H; auto.
Qed.

(** X13: [hold] chooses the button.  Every remote call of [power_off] is
    the query of the power state or, on the client [power_off] built
    first, the one button command that [hold] selects: [hold_pwr_btn] when
    [hold] is truthy and [press_pwr_btn] otherwise. *)
Theorem power_off_button_choice w hold kw h ilo m r :
  In (ECall ilo m r) (events (power_off w hold kw) h) ->
  m = get_host_power_status
  \/ (m = (if truthy hold then hold_pwr_btn else press_pwr_btn)
      /\ head (constructed (events (power_off w hold kw) h)) = Some ilo).
Proof.
  power_off_cases w; intros Hin; member_cases Hin;
    injection Hin as <- <- <-; auto.
Qed.


(** ** The queries *)

(** X15: [network_settings] hands on what the client returns: when the
    remote query returns a value, that value is the result, unchanged,
    and the query is [get_network_settings]. *)
Theorem network_settings_passthrough w kw h ilo m v :
  In (ECall ilo m (Returns v)) (events (network_settings w kw) h) ->
  outcome (network_settings w kw) h = Ok v /\ m = get_network_settings.
Proof.
  unfold outcome, events. rewrite network_settings_run. unfold one_call_run.
  destruct (_login_creds _ _); [|intros []]. cbn zeta.
  destruct (remote _ _ _ _); cbn [fst snd]; intros Hin; member_cases Hin.
  injection Hin as <- <- <-. split; reflexivity.
Qed.

(** X16: [get_boot_order] hands on what the client returns: when the
    remote query returns a value, that value is the result, unchanged,
    and the query is [get_persistent_boot]. *)
Theorem get_boot_order_passthrough w kw h ilo m v :
  In (ECall ilo m (Returns v)) (events (get_boot_order w kw) h) ->
  outcome (get_boot_order w kw) h = Ok v /\ m = get_persistent_boot.
Proof.
  unfold outcome, events. rewrite get_boot_order_run. unfold one_call_run.
  destruct (_login_creds _ _); [|intros []]. cbn zeta.
  destruct (remote _ _ _ _); cbn [fst snd]; intros Hin; member_cases Hin.
  injection Hin as <- <- <-. split; reflexivity.
Qed.

(** X17: [product_info] needs mappings.  When the three queries return
    and the firmware answer or the asset-tag answer is not a mapping,
    [product_info] raises [TypeError]; the error is not caught and nothing
    is logged. *)
Theorem product_info_not_mapping w kw h ilo fw tag :
  In (ECall ilo get_fw_version (Returns fw)) (events (product_info w kw) h) ->
  In (ECall ilo get_asset_tag (Returns tag)) (events (product_info w kw) h) ->
  is_dict fw = false \/ is_dict tag = false ->
  outcome (product_info w kw) h = Raise TypeError
  /\ forall text, ~ In (ELogError text) (events (product_info w kw) h).
Proof.
  unfold outcome, events. rewrite product_info_run. unfold product_log.
  destruct (_login_creds _ _); [|intros []]. cbn zeta.
  destruct (remote w _ _ get_product_name) as [vpn|];
    [destruct (remote w _ _ get_fw_version) as [vfw|];
      [destruct (remote w _ _ get_asset_tag) as [vtag|]|]|];
    cbn [fst snd]; intros H1 H2 Hd; member_cases H1; member_cases H2.
  injection H1 as <- <-. injection H2 as <-.
  split.
  - unfold product_dict, py_mapping.
    destruct vtag; cbn [rbind]; try reflexivity.
    destruct vfw; cbn [rbind]; try reflexivity.
    destruct Hd as [Hd|Hd]; discriminate Hd.
  - intros text Hin. member_cases Hin.
Qed.

(** X19: the pre-check of [power_off] is a call of [get_power_status].
    After its own client, the events of [power_off] are those of
    [get_power_status] run at that point, and nothing follows them exactly
    when that call returns [{power: False}]. *)
Theorem power_off_composes w hold kw h c :
  _login_creds w kw = Ok c ->
  exists rest,
    events (power_off w hold kw) h =
      EConstruct (new_ilo h c kw)
      :: events (get_power_status w kw) (h ++ [EConstruct (new_ilo h c kw)])
      ++ rest
    /\ (rest = [] <->
        outcome (get_power_status w kw) (h ++ [EConstruct (new_ilo h c kw)])
        = Ok (PDict {[ "power" := PBool false ]})).
Proof.
  intros Hc. unfold outcome, events.
  rewrite power_off_run, get_power_status_run. unfold one_call_run.
  rewrite login_creds_delay, Hc.
  unfold precheck_off, precheck_events, button_run. cbn zeta.
  rewrite <- !app_assoc. cbn [app].
  destruct (remote w _ _ get_host_power_status) as [pwr|err];
    [destruct (py_eq_str pwr "ON"); cbn [negb]|];
    try (destruct (remote w _ _ (button _)));
    cbn [fst snd app].
  all: eexists; split; [reflexivity|].
  all: split; intros H; try discriminate H; try reflexivity.
  all: exfalso; apply Ok_inj in H.
  all: try (apply singleton_bool_inj in H; discriminate H).
  all: apply (f_equal (fun v => match v with
                                | PDict d => d !! "power"
                                | _ => None
                                end)) in H;
    rewrite lookup_singleton_eq, lookup_empty in H; discriminate H.
Qed.

(** ** The further properties at concrete inputs *)

Lemma login_profile_client_witness :
  explicit Mock.profile_kwargs = false
  /\ Mock.profile_kwargs !! "profile" = Some (PStr "server2-ilo")
  /\ config_option (Mock.world (Mock.device "ON")) (PStr "server2-ilo")
     = PDict server2_profile
  /\ outcome (_login (Mock.world (Mock.device "ON")) Mock.profile_kwargs) []
     = Ok (mkIlo 0 (PStr "server2-ilo.oob.local") (PStr "Administrator")
             (PStr "password_2") (PBool false)).
Proof.
  split; [reflexivity|]. split; [reflexivity|]. split; [reflexivity|].
  unfold outcome.
  rewrite (login_profile_client (Mock.world (Mock.device "ON"))
             Mock.profile_kwargs [] (PStr "server2-ilo") server2_profile
             (PStr "Administrator") (PStr "password_2")
             (PStr "server2-ilo.oob.local")); reflexivity.
Defined.

Lemma login_default_client_witness :
  explicit (∅ : gmap string pyval) = false
  /\ (∅ : gmap string pyval) !! "profile" = None
  /\ outcome (_login (Mock.world (Mock.device "ON")) ∅) [] = Ok (default_client 0).
Proof.
  split; [reflexivity|]. split; [reflexivity|].
  unfold outcome.
  rewrite (login_default_client (Mock.world (Mock.device "ON")) ∅ []);
    reflexivity.
Defined.

Lemma partial_explicit_ignored_witness :
  explicit {[ "login" := PStr "root"; "profile" := PStr "server2-ilo" ]} = false
  /\ _login_creds (Mock.world (Mock.device "ON"))
       {[ "login" := PStr "root"; "profile" := PStr "server2-ilo" ]}
     = Ok (mkCreds (PStr "Administrator") (PStr "password_2")
             (PStr "server2-ilo.oob.local")).
Proof.
  split; [reflexivity|].
  rewrite (partial_explicit_ignored (Mock.world (Mock.device "ON"))
             {[ "login" := PStr "root"; "profile" := PStr "server2-ilo" ]});
    reflexivity.
Defined.


Lemma resolution_failure_propagates_witness :
  _login_creds (Mock.world (Mock.device "ON")) unknown_profile_kwargs
    = Raise TypeError
  /\ dispatch (Mock.world (Mock.device "ON")) Op_list_users
       unknown_profile_kwargs [] = (Raise TypeError, []).
Proof.
  split; [reflexivity|].
  apply (resolution_failure_propagates (Mock.world (Mock.device "ON"))
           Op_list_users unknown_profile_kwargs [] TypeError).
  reflexivity.
Defined.

Lemma dispatch_delayed_flag_witness :
  In (mkIlo 0 (PStr "server1-ilo.oob.local") (PStr "Administrator")
        (PStr "password") (PBool true))
     (constructed (events (dispatch (Mock.world (Mock.device "ON"))
                             Op_get_boot_order {[ "delay" := PBool true ]}) []))
  /\ delayed (mkIlo 0 (PStr "server1-ilo.oob.local") (PStr "Administrator")
                (PStr "password") (PBool true)) = PBool true.
Proof.
  split; [vm_compute; tauto|].
  refine (dispatch_delayed_flag (Mock.world (Mock.device "ON"))
            Op_get_boot_order {[ "delay" := PBool true ]} []
            (mkIlo 0 (PStr "server1-ilo.oob.local") (PStr "Administrator")
               (PStr "password") (PBool true)) _).
  vm_compute. tauto.
Defined.

Lemma queries_never_change_power_witness :
  is_query Op_product_info = true
  /\ In (ECall (default_client 0) get_fw_version (Returns (PDict Mock.firmware)))
        (events (dispatch (Mock.world (Mock.device "ON")) Op_product_info ∅) [])
  /\ is_power_change
       (ECall (default_client 0) get_fw_version (Returns (PDict Mock.firmware)))
     = false.
Proof.
  split; [reflexivity|]. split; [vm_compute; tauto|].
  apply (queries_never_change_power (Mock.world (Mock.device "ON"))
           Op_product_info ∅ []).
  - reflexivity.
  - vm_compute. tauto.
Defined.

Lemma log_only_on_error_witness :
  In (ELogError "Failed to get power state of server1-ilo.oob.local: timed out")
     (events (dispatch (Mock.world Mock.unreachable) Op_get_power_status ∅) [])
  /\ exists ilo m msg,
       In (ECall ilo m (RaisesIloError msg))
          (events (dispatch (Mock.world Mock.unreachable) Op_get_power_status ∅) [])
       /\ contains (format_value (Mock.world Mock.unreachable) (hostname ilo))
            "Failed to get power state of server1-ilo.oob.local: timed out"
       /\ contains msg
            "Failed to get power state of server1-ilo.oob.local: timed out".
Proof.
  split; [vm_compute; tauto|].
  apply (log_only_on_error (Mock.world Mock.unreachable) Op_get_power_status ∅ []).
  vm_compute. tauto.
Defined.

Lemma dispatch_calls_bounded_witness :
  _login_creds (Mock.world (Mock.device "ON")) ∅
    = Ok (mkCreds (PStr "Administrator") (PStr "password")
            (PStr "server1-ilo.oob.local"))
  /\ calls (events (dispatch (Mock.world (Mock.device "ON")) Op_product_info ∅) [])
     = [get_product_name; get_fw_version; get_asset_tag]
  /\ NoDup (calls (events (dispatch (Mock.world (Mock.device "ON"))
                             Op_product_info ∅) [])).
Proof.
  split; [reflexivity|]. split; [reflexivity|].
  refine (proj2 (dispatch_calls_bounded (Mock.world (Mock.device "ON"))
                   Op_product_info ∅ []
                   (mkCreds (PStr "Administrator") (PStr "password")
                      (PStr "server1-ilo.oob.local")) _)).
  reflexivity.
Defined.

Lemma stops_at_first_error_witness :
  (forall hold, Op_product_info <> Op_power_off hold)
  /\ In (ECall (default_client 0) get_product_name (RaisesIloError "timed out"))
        (events (dispatch (Mock.world Mock.unreachable) Op_product_info ∅) [])
  /\ exists pre post,
       events (dispatch (Mock.world Mock.unreachable) Op_product_info ∅) []
       = pre ++ ECall (default_client 0) get_product_name
                  (RaisesIloError "timed out") :: post
       /\ calls post = [].
Proof.
  split; [discriminate|]. split; [vm_compute; tauto|].
  apply (stops_at_first_error (Mock.world Mock.unreachable) Op_product_info ∅ []).
  - discriminate.
  - vm_compute. tauto.
Defined.


Lemma power_off_result_shape_witness :
  outcome (power_off (Mock.world Mock.stuck_button) (PBool false) ∅) []
    = Ok (PDict {[ "power_state" := PNone ]})
  /\ (PDict {[ "power_state" := PNone ]}
        = PDict {[ "power_state" := PBool false ]}
      \/ PDict {[ "power_state" := PNone ]}
        = PDict {[ "power_state" := PNone ]} :> pyval).
Proof.
  split; [reflexivity|].
  apply (power_off_result_shape (Mock.world Mock.stuck_button) (PBool false) ∅ []).
  reflexivity.
Defined.

Lemma power_off_button_choice_witness :
  In (ECall (default_client 0) hold_pwr_btn (Returns PNone))
     (events (power_off (Mock.world (Mock.device "ON")) (PStr "yes") ∅) [])
  /\ (hold_pwr_btn = get_host_power_status
      \/ (hold_pwr_btn = (if truthy (PStr "yes") then hold_pwr_btn
                          else press_pwr_btn)
          /\ head (constructed
                     (events (power_off (Mock.world (Mock.device "ON"))
                                (PStr "yes") ∅) []))
             = Some (default_client 0))).
Proof.
  split; [vm_compute; tauto|].
  apply (power_off_button_choice (Mock.world (Mock.device "ON")) (PStr "yes") ∅ []
           (default_client 0) hold_pwr_btn (Returns PNone)).
  vm_compute. tauto.
Defined.


Lemma network_settings_passthrough_witness :
  In (ECall (default_client 0) get_network_settings
        (Returns (PDict {[ "dns_name" := PStr "server1-ilo";
                           "dhcp_enable" := PBool false ]})))
     (events (network_settings (Mock.world (Mock.device "ON")) ∅) [])
  /\ outcome (network_settings (Mock.world (Mock.device "ON")) ∅) []
     = Ok (PDict {[ "dns_name" := PStr "server1-ilo";
                    "dhcp_enable" := PBool false ]}).
Proof.
  split; [vm_compute; tauto|].
  refine (proj1 (network_settings_passthrough (Mock.world (Mock.device "ON")) ∅ []
                   (default_client 0) get_network_settings _ _)).
  vm_compute. tauto.
Defined.

Lemma get_boot_order_passthrough_witness :
  In (ECall (default_client 0) get_persistent_boot
        (Returns (PList [PStr "cdrom"; PStr "hdd"])))
     (events (get_boot_order (Mock.world (Mock.device "ON")) ∅) [])
  /\ outcome (get_boot_order (Mock.world (Mock.device "ON")) ∅) []
     = Ok (PList [PStr "cdrom"; PStr "hdd"]).
Proof.
  split; [vm_compute; tauto|].
  refine (proj1 (get_boot_order_passthrough (Mock.world (Mock.device "ON")) ∅ []
                   (default_client 0) get_persistent_boot _ _)).
  vm_compute. tauto.
Defined.

Lemma product_info_not_mapping_witness :
  In (ECall (default_client 0) get_fw_version (Returns (PDict Mock.firmware)))
     (events (product_info (Mock.world odd_tag_device) ∅) [])
  /\ In (ECall (default_client 0) get_asset_tag (Returns (PStr "A-1017")))
        (events (product_info (Mock.world odd_tag_device) ∅) [])
  /\ (is_dict (PDict Mock.firmware) = false \/ is_dict (PStr "A-1017") = false)
  /\ outcome (product_info (Mock.world odd_tag_device) ∅) [] = Raise TypeError.
Proof.
  split; [vm_compute; tauto|]. split; [vm_compute; tauto|].
  split; [right; reflexivity|].
  refine (proj1 (product_info_not_mapping (Mock.world odd_tag_device) ∅ []
                   (default_client 0) (PDict Mock.firmware) (PStr "A-1017")
                   _ _ _)).
  - vm_compute. tauto.
  - vm_compute. tauto.
  - right. reflexivity.
Defined.

Lemma dispatch_catches_witness :
  Op_network_settings <> Op_power_on
  /\ In (ECall (default_client 0) get_network_settings (RaisesIloError "timed out"))
        (events (dispatch (Mock.world Mock.unreachable) Op_network_settings ∅) [])
  /\ outcome (dispatch (Mock.world Mock.unreachable) Op_network_settings ∅) []
     = Ok (PDict ∅).
Proof.
  split; [discriminate|]. split; [vm_compute; tauto|].
  refine (proj2 (dispatch_catches (Mock.world Mock.unreachable)
                   Op_network_settings ∅ [] (default_client 0)
                   get_network_settings "timed out" _ _)).
  - discriminate.
  - vm_compute. tauto.
Defined.

Lemma power_off_composes_witness :
  _login_creds (Mock.world (Mock.device "OFF")) ∅
    = Ok (mkCreds (PStr "Administrator") (PStr "password")
            (PStr "server1-ilo.oob.local"))
  /\ exists rest,
       events (power_off (Mock.world (Mock.device "OFF")) (PBool false) ∅) [] =
         EConstruct (default_client 0)
         :: events (get_power_status (Mock.world (Mock.device "OFF")) ∅)
              [EConstruct (default_client 0)]
         ++ rest.
Proof.
  assert (Hc : _login_creds (Mock.world (Mock.device "OFF")) ∅
               = Ok (mkCreds (PStr "Administrator") (PStr "password")
                       (PStr "server1-ilo.oob.local"))) by reflexivity.
  split; [exact Hc|].
  destruct (power_off_composes (Mock.world (Mock.device "OFF")) (PBool false) ∅ []
              (mkCreds (PStr "Administrator") (PStr "password")
                 (PStr "server1-ilo.oob.local")) Hc) as (rest & Hev & _).
  exists rest. exact Hev.
Defined.
